(** * AutoPR: the Brain agent's orchestration envelope

    A shallow embedding of [autopr/agents/brain_agent/base.py]
    (class [BrainAgentBase]: [__init__], [generate_pr], [_generate_pr]).

    The class talks to the outside only through method calls on injected
    collaborators (the publish service, the structlog logger, the rail
    service's completions repo) and through the overridable method
    [_generate_pr].  Each such call is a transition on the object heap that
    either returns or raises; the embedding threads the heap through the calls
    in source order and records every call this layer issues, with the way it
    ended, in a call log. *)

From Stdlib Require Import String List Bool Arith Lia.
Import ListNotations.
Local Open Scope string_scope.
Local Open Scope list_scope.

(** ** Python values the module handles *)

(** A reference to a Python object (a collaborator, an option value). *)
Definition ref : Type := nat.

(** The exception classes that matter for [except Exception]: the built-in
    roots, the class the base method raises, and classes defined elsewhere,
    each with its direct base. *)
Inductive exc_class : Type :=
| BaseException
| SystemExit
| KeyboardInterrupt
| GeneratorExit
| Exception
| RuntimeError
| NotImplementedError
| UserClass (name : string) (base : exc_class).

(** [issubclass(c, Exception)]: [SystemExit], [KeyboardInterrupt] and
    [GeneratorExit] derive from [BaseException] directly; [NotImplementedError]
    derives from [RuntimeError], which derives from [Exception]. *)
Fixpoint issubclass_Exception (c : exc_class) : bool :=
  match c with
  | BaseException | SystemExit | KeyboardInterrupt | GeneratorExit => false
  | Exception | RuntimeError | NotImplementedError => true
  | UserClass _ base => issubclass_Exception base
  end.

(** An exception object: its class and its [args]. *)
Record exn : Type := mk_exn { exc_type : exc_class; exc_args : list string }.

(** [isinstance(e, Exception)], the test of [except Exception as e]. *)
Definition isinstance_Exception (e : exn) : bool :=
  issubclass_Exception (exc_type e).

(** How a call ends. *)
Inductive result (A : Type) : Type :=
| Return (a : A)
| Raise (e : exn).
Arguments Return {A} a.
Arguments Raise {A} e.

(** The same, forgetting the returned value: what the call log keeps. *)
Inductive outcome : Type :=
| Returned
| Raised (e : exn).

Definition outcome_of {A : Type} (r : result A) : outcome :=
  match r with
  | Return _ => Returned
  | Raise e => Raised e
  end.

Definition returned (o : outcome) : bool :=
  match o with
  | Returned => true
  | Raised _ => false
  end.

Section Model.

(** [autopr.models.events.EventUnion] is declared outside this module; the
    orchestrator only passes the event on. *)
Context {EventUnion : Type}.

(** The heap: the state of every object other than the agent's own attribute
    dictionary (the collaborators, the published pull request, the event). *)
Context {Heap : Type}.

(** ** The instance attributes set by [__init__] *)
Record BrainAgentBase : Type := {
  rail_service : ref;
  chain_service : ref;
  diff_service : ref;
  codegen_agent : ref;
  pull_request_agent : ref;
  commit_service : ref;
  publish_service : ref;
  repo : ref;
  log : ref
}.

(** What a method of the agent can read and write: [self] and the heap. *)
Record state : Type := { self_ : BrainAgentBase; heap : Heap }.

Definition with_heap (s : state) (h : Heap) : state :=
  {| self_ := self_ s; heap := h |}.

(** ** The calls this layer issues *)
Inductive call : Type :=
| GetLogger (service id_ : string)
    (* structlog.get_logger(service=..., id=...) *)
| LogWarning (lg : ref) (msg : string) (kwargs : list (string * ref))
    (* self.log.warning(msg, kwargs=kwargs) *)
| LogInfo (lg : ref) (msg : string) (event_ : EventUnion)
    (* self.log.info(msg, event_=event) *)
| LogException (lg : ref) (msg : string) (event_ : EventUnion) (exc_info : exn)
    (* self.log.exception(msg, event_=event, exc_info=e) *)
| Update (ps : ref)
    (* self.publish_service.update() *)
| PublishUpdate (ps : ref) (text : string)
    (* self.publish_service.publish_update(text) *)
| Finalize (ps : ref) (success : bool)
    (* self.publish_service.finalize(success=...) *)
| GeneratePr (event : EventUnion).
    (* self._generate_pr(event) *)

(** One line of the call log: the call and how it ended. *)
Record entry : Type := { what : call; how : outcome }.

(** ** The collaborators

    Every method may return or raise and may change the heap.  The model
    identifier is a plain attribute read
    ([rail_service.completions_repo.model]). *)
Record Collaborators : Type := {
  structlog_get_logger : string -> string -> Heap -> result ref * Heap;
  Logger_warning : ref -> string -> list (string * ref) -> Heap -> result unit * Heap;
  Logger_info : ref -> string -> EventUnion -> Heap -> result unit * Heap;
  Logger_exception : ref -> string -> EventUnion -> exn -> Heap -> result unit * Heap;
  PublishService_update : ref -> Heap -> result unit * Heap;
  PublishService_publish_update : ref -> string -> Heap -> result unit * Heap;
  PublishService_finalize : ref -> bool -> Heap -> result unit * Heap;
  completions_repo_model : ref -> Heap -> string
}.

(** A method body taking [event]: it runs on [self] and the heap. *)
Definition method : Type := EventUnion -> state -> result unit * state.

(** A concrete Brain class: the [id] class attribute (declared
    [ClassVar[str]] in the base, set in the subclass) and its own
    [_generate_pr] when it defines one. *)
Record BrainClass : Type := {
  id : string;
  override_generate_pr : option method
}.

(** ** Computations: heap or state threading, exceptions, call log *)
Definition M (S A : Type) : Type := S -> result A * S * list entry.

Definition ret {S A : Type} (a : A) : M S A :=
  fun s => (Return a, s, []).

Definition raise {S A : Type} (e : exn) : M S A :=
  fun s => (Raise e, s, []).

Definition bind {S A B : Type} (m : M S A) (k : A -> M S B) : M S B :=
  fun s =>
    match m s with
    | (Return a, s1, t1) =>
        match k a s1 with
        | (r, s2, t2) => (r, s2, t1 ++ t2)
        end
    | (Raise e, s1, t1) => (Raise e, s1, t1)
    end.

(** Issue the call [c], whose behaviour is [f], and log it. *)
Definition invoke {S A : Type} (c : call) (f : S -> result A * S) : M S A :=
  fun s =>
    match f s with
    | (r, s1) => (r, s1, [{| what := c; how := outcome_of r |}])
    end.

(** Read something off the current state ([self.attr], a data attribute). *)
Definition gets {S A : Type} (f : S -> A) : M S A :=
  fun s => (Return (f s), s, []).

(** A collaborator's method only sees the heap. *)
Definition on_heap {A : Type} (f : Heap -> result A * Heap)
  : state -> result A * state :=
  fun s =>
    match f (heap s) with
    | (r, h) => (r, with_heap s h)
    end.

(** [try: body  except Exception as e: handler e].  An exception that is not
    an instance of [Exception] goes past the handler. *)
Definition try_except_Exception {S A : Type}
  (body : M S A) (handler : exn -> M S A) : M S A :=
  fun s =>
    match body s with
    | (Return a, s1, t1) => (Return a, s1, t1)
    | (Raise e, s1, t1) =>
        if isinstance_Exception e then
          match handler e s1 with
          | (r, s2, t2) => (r, s2, t1 ++ t2)
          end
        else (Raise e, s1, t1)
    end.

End Model.

Arguments state : clear implicits.
Arguments call : clear implicits.
Arguments entry : clear implicits.
Arguments Collaborators : clear implicits.
Arguments method : clear implicits.
Arguments BrainClass : clear implicits.
Arguments M : clear implicits.

Declare Scope py_scope.
Delimit Scope py_scope with py.
Notation "x <- m ;; k" := (bind m (fun x => k))
  (at level 61, m at next level, right associativity) : py_scope.
Notation "m ;; k" := (bind m (fun _ => k))
  (at level 61, right associativity) : py_scope.

(** ** The class [BrainAgentBase] *)

(** The advisory published when the completion model is [gpt-3.5-turbo]
    (adjacent string literals, concatenated as Python does). *)
Definition gpt35_warning : string :=
  ("⚠️⚠️⚠️ Warning: Using `gpt-3.5-turbo` completion model. "
   ++ "AutoPR is currently not optimized for this model. "
   ++ "See https://github.com/irgolic/AutoPR/issues/65 for more details. "
   ++ "In the mean time, if you have access to the `gpt-4` API, please use that instead. "
   ++ "Please note that ChatGPT Plus does not give you access to the `gpt-4` API; "
   ++ "you need to sign up on [the GPT-4 API waitlist](https://openai.com/waitlist/gpt-4-api). ")%string.

(** Truth value of a [dict]: false exactly when it is empty. *)
Definition truthy {K V : Type} (d : list (K * V)) : bool :=
  match d with
  | [] => false
  | _ :: _ => true
  end.

Section Class.

Context {EventUnion Heap : Type}.
Variable W : Collaborators EventUnion Heap.

Local Open Scope py_scope.

(** [BrainAgentBase.__init__]: stores the eight collaborators, builds the
    logger, and warns about keyword options nobody consumed.  The eight
    assignments come first in the source; they call nothing, so the attribute
    record is written down once the logger, its ninth field, is there. *)
Definition __init__ (cls : BrainClass EventUnion Heap)
  (rail_service chain_service diff_service codegen_agent pull_request_agent
   commit_service publish_service repo : ref)
  (kwargs : list (string * ref)) : M EventUnion Heap BrainAgentBase :=
  lg <- invoke (GetLogger "brain" (id cls))
               (structlog_get_logger W "brain" (id cls)) ;;
  let self :=
    {| rail_service := rail_service;
       chain_service := chain_service;
       diff_service := diff_service;
       codegen_agent := codegen_agent;
       pull_request_agent := pull_request_agent;
       commit_service := commit_service;
       publish_service := publish_service;
       repo := repo;
       log := lg |} in
  (if truthy kwargs then
     invoke (LogWarning (log self) "Brain did not use additional options" kwargs)
            (Logger_warning W (log self) "Brain did not use additional options" kwargs)
   else ret tt) ;;
  ret self.

(** [BrainAgentBase._generate_pr]: the base body, [raise NotImplementedError]. *)
Definition _generate_pr : method EventUnion Heap :=
  fun event s => (Raise (mk_exn NotImplementedError []), s).

(** The method [self._generate_pr] resolves to: the subclass's own when it
    defines one, the base's otherwise. *)
Definition resolve_generate_pr (cls : BrainClass EventUnion Heap)
  : method EventUnion Heap :=
  match override_generate_pr cls with
  | Some m => m
  | None => _generate_pr
  end.

(** [BrainAgentBase.generate_pr]. *)
Definition generate_pr (cls : BrainClass EventUnion Heap) (event : EventUnion)
  : M EventUnion (state Heap) unit :=
  (* Publish an empty pull request *)
  ps <- gets (fun s => publish_service (self_ s)) ;;
  invoke (Update ps) (on_heap (PublishService_update W ps)) ;;
  (* Publish a warning if using gpt-3.5-turbo *)
  model <- gets (fun s => completions_repo_model W (rail_service (self_ s)) (heap s)) ;;
  (if (model =? "gpt-3.5-turbo")%string then
     ps <- gets (fun s => publish_service (self_ s)) ;;
     invoke (PublishUpdate ps gpt35_warning)
            (on_heap (PublishService_publish_update W ps gpt35_warning))
   else ret tt) ;;
  lg <- gets (fun s => log (self_ s)) ;;
  invoke (LogInfo lg "Generating changes" event)
         (on_heap (Logger_info W lg "Generating changes" event)) ;;
  try_except_Exception
    (invoke (GeneratePr event) (resolve_generate_pr cls event))
    (fun e =>
       lg <- gets (fun s => log (self_ s)) ;;
       invoke (LogException lg "Failed to generate pull request" event e)
              (on_heap (Logger_exception W lg "Failed to generate pull request" event e)) ;;
       ps <- gets (fun s => publish_service (self_ s)) ;;
       invoke (Finalize ps false) (on_heap (PublishService_finalize W ps false)) ;;
       raise e) ;;
  lg <- gets (fun s => log (self_ s)) ;;
  invoke (LogInfo lg "Generated changes" event)
         (on_heap (Logger_info W lg "Generated changes" event)) ;;
  (* Finalize the pull request (put progress updates in a collapsible) *)
  ps <- gets (fun s => publish_service (self_ s)) ;;
  invoke (Finalize ps true) (on_heap (PublishService_finalize W ps true)).

End Class.

(** ** Reading the call log *)

Section CallLog.

Context {EventUnion : Type}.

Definition is_update (c : call EventUnion) : bool :=
  match c with Update _ => true | _ => false end.

Definition is_publish_update (c : call EventUnion) : bool :=
  match c with PublishUpdate _ _ => true | _ => false end.

Definition is_finalize (c : call EventUnion) : bool :=
  match c with Finalize _ _ => true | _ => false end.

Definition is_generate_pr (c : call EventUnion) : bool :=
  match c with GeneratePr _ => true | _ => false end.

Definition is_log_exception (c : call EventUnion) : bool :=
  match c with LogException _ _ _ _ => true | _ => false end.


(** The calls of the log, in order, without their outcomes. *)
Definition calls (t : list (entry EventUnion)) : list (call EventUnion) :=
  map what t.

(** The calls of one kind, in the order they were issued. *)
Definition calls_of (p : call EventUnion -> bool) (t : list (entry EventUnion))
  : list (call EventUnion) :=
  filter p (calls t).

(** How many calls of one kind were issued. *)
Definition count (p : call EventUnion -> bool) (t : list (entry EventUnion)) : nat :=
  length (calls_of p t).

(** The placeholder publish and the finalize calls, in the order issued. *)
Definition publish_signals (t : list (entry EventUnion)) : list (call EventUnion) :=
  calls_of (fun c => is_update c || is_finalize c) t.

(** Index in the log of the first call of one kind. *)
Fixpoint position (p : call EventUnion -> bool) (t : list (entry EventUnion))
  : option nat :=
  match t with
  | [] => None
  | en :: t' =>
      if p (what en) then Some 0
      else match position p t' with
           | Some i => Some (S i)
           | None => None
           end
  end.

(** How the first call of one kind ended. *)
Fixpoint outcome_at (p : call EventUnion -> bool) (t : list (entry EventUnion))
  : option outcome :=
  match t with
  | [] => None
  | en :: t' => if p (what en) then Some (how en) else outcome_at p t'
  end.

(** The [success] flags of the finalize calls, in order. *)
Fixpoint finalize_flags (t : list (entry EventUnion)) : list bool :=
  match t with
  | [] => []
  | en :: t' =>
      match what en with
      | Finalize _ b => b :: finalize_flags t'
      | _ => finalize_flags t'
      end
  end.

(** Every call to the publish service and to the logger returned normally. *)
Definition collaborators_returned (t : list (entry EventUnion)) : bool :=
  forallb (fun en => is_generate_pr (what en) || returned (how en)) t.

(** The same, leaving out the finalize call as well: everything the envelope
    calls on the way to finalize returned normally. *)
Definition calls_before_finalize_returned (t : list (entry EventUnion)) : bool :=
  forallb (fun en => is_generate_pr (what en) || is_finalize (what en)
                     || returned (how en)) t.

(** ** More readers of the call log *)

Definition is_log_info (c : call EventUnion) : bool :=
  match c with LogInfo _ _ _ => true | _ => false end.

(** The two calls only [__init__] makes. *)
Definition is_logger_setup (c : call EventUnion) : bool :=
  match c with GetLogger _ _ | LogWarning _ _ _ => true | _ => false end.

(** A method of the publish service. *)
Definition is_publish_call (c : call EventUnion) : bool :=
  is_update c || is_publish_update c || is_finalize c.

(** The event a call is given, when it is given one. *)
Definition event_of_call (c : call EventUnion) : option EventUnion :=
  match c with
  | LogInfo _ _ event => Some event
  | LogException _ _ event _ => Some event
  | GeneratePr event => Some event
  | GetLogger _ _ | LogWarning _ _ _ | Update _ | PublishUpdate _ _
  | Finalize _ _ => None
  end.

(** The object a method is called on: the logger or the publish service.
    [structlog.get_logger] is a module function and [_generate_pr] runs on
    [self]. *)
Definition receiver (c : call EventUnion) : option ref :=
  match c with
  | LogWarning lg _ _ | LogInfo lg _ _ | LogException lg _ _ _ => Some lg
  | Update ps | PublishUpdate ps _ | Finalize ps _ => Some ps
  | GetLogger _ _ | GeneratePr _ => None
  end.

(** The messages logged at info level, in order. *)
Fixpoint info_messages (t : list (entry EventUnion)) : list string :=
  match t with
  | [] => []
  | en :: t' =>
      match what en with
      | LogInfo _ msg _ => msg :: info_messages t'
      | _ => info_messages t'
      end
  end.

(** Every call of the log returned, [_generate_pr] included. *)
Definition all_returned (t : list (entry EventUnion)) : bool :=
  forallb (fun en => returned (how en)) t.

(** The last line of the log. *)
Fixpoint last_entry (t : list (entry EventUnion)) : option (entry EventUnion) :=
  match t with
  | [] => None
  | [en] => Some en
  | _ :: t' => last_entry t'
  end.

End CallLog.

(** ** The state change of a logged call *)

Section Replay.

Context {EventUnion Heap : Type}.
Variable W : Collaborators EventUnion Heap.
Variable cls : BrainClass EventUnion Heap.

(** What the call [c] does to the state it is issued in: a collaborator's
    method acts on the heap, [_generate_pr] on [self] and the heap. *)
Definition effect (c : call EventUnion) (s : state Heap) : state Heap :=
  match c with
  | GetLogger service id_ =>
      with_heap s (snd (structlog_get_logger W service id_ (heap s)))
  | LogWarning lg msg kwargs =>
      with_heap s (snd (Logger_warning W lg msg kwargs (heap s)))
  | LogInfo lg msg event =>
      with_heap s (snd (Logger_info W lg msg event (heap s)))
  | LogException lg msg event e =>
      with_heap s (snd (Logger_exception W lg msg event e (heap s)))
  | Update ps =>
      with_heap s (snd (PublishService_update W ps (heap s)))
  | PublishUpdate ps text =>
      with_heap s (snd (PublishService_publish_update W ps text (heap s)))
  | Finalize ps success =>
      with_heap s (snd (PublishService_finalize W ps success (heap s)))
  | GeneratePr event =>
      snd (resolve_generate_pr cls event s)
  end.

(** The state after a sequence of calls, issued one after the other. *)
Definition replay (cs : list (call EventUnion)) (s : state Heap) : state Heap :=
  fold_left (fun s' c => effect c s') cs s.

(** How the call [c] ends in the state it is issued in. *)
Definition reply (c : call EventUnion) (s : state Heap) : outcome :=
  match c with
  | GetLogger service id_ =>
      outcome_of (fst (structlog_get_logger W service id_ (heap s)))
  | LogWarning lg msg kwargs =>
      outcome_of (fst (Logger_warning W lg msg kwargs (heap s)))
  | LogInfo lg msg event =>
      outcome_of (fst (Logger_info W lg msg event (heap s)))
  | LogException lg msg event e =>
      outcome_of (fst (Logger_exception W lg msg event e (heap s)))
  | Update ps =>
      outcome_of (fst (PublishService_update W ps (heap s)))
  | PublishUpdate ps text =>
      outcome_of (fst (PublishService_publish_update W ps text (heap s)))
  | Finalize ps success =>
      outcome_of (fst (PublishService_finalize W ps success (heap s)))
  | GeneratePr event =>
      outcome_of (fst (resolve_generate_pr cls event s))
  end.

(** A log is sound from the state [s] when each of its lines records how its
    call really ended in the state the lines before it lead to. *)
Fixpoint log_sound (t : list (entry EventUnion)) (s : state Heap) : Prop :=
  match t with
  | [] => True
  | en :: t' =>
      how en = reply (what en) s /\ log_sound t' (effect (what en) s)
  end.

(** A line of the log for a call that returned, and for one that raised. *)
Definition ok (c : call EventUnion) : entry EventUnion :=
  {| what := c; how := Returned |}.

Definition failed (c : call EventUnion) (e : exn) : entry EventUnion :=
  {| what := c; how := Raised e |}.

(** The test of the advisory block on the heap [h]: is the model identifier
    exactly ["gpt-3.5-turbo"]? *)
Definition advisory_due (self : BrainAgentBase) (h : Heap) : bool :=
  (completions_repo_model W (rail_service self) h =? "gpt-3.5-turbo")%string.

(** The lines a returning advisory block leaves in the log. *)
Definition advisory_log (self : BrainAgentBase) (h : Heap)
  : list (entry EventUnion) :=
  if advisory_due self h
  then [ok (PublishUpdate (publish_service self) gpt35_warning)]
  else [].

(** The log up to the call of [_generate_pr] when the three calls before it
    return: the placeholder publish, ending in heap [h], the advisory when it
    is due, and the start log. *)
Definition prologue_log (event : EventUnion) (self : BrainAgentBase) (h : Heap)
  : list (entry EventUnion) :=
  ok (Update (publish_service self))
  :: advisory_log self h
  ++ [ok (LogInfo (log self) "Generating changes" event)].

(** One finalize call, the last call of the log, after the [_generate_pr]
    call, which is not the first call. *)
Definition finalized_in_order (t : list (entry EventUnion)) : Prop :=
  count is_finalize t = 1 /\
  exists i j,
    position is_generate_pr t = Some i /\
    position is_finalize t = Some j /\
    0 < i /\ i < j /\ S j = length t.

End Replay.

(** ** A scripted world for the worked examples

    The event is the one of the specification's scenarios.  The heap holds
    the title of the issue the event refers to and the progress lines the
    publish service has rendered so far.  A script fixes the model identifier
    and, per collaborator method, whether it raises. *)

Inductive ScenarioEvent : Type :=
| IssueOpened (number : nat).

Record ScenarioHeap : Type := {
  issue_title : string;
  progress : list string
}.

Definition render (line : string) (h : ScenarioHeap) : ScenarioHeap :=
  {| issue_title := issue_title h; progress := progress h ++ [line] |}.

Record script : Type := {
  model_name : string;
  get_logger_raises : option exn;
  warning_raises : option exn;
  info_raises : option exn;
  exception_raises : option exn;
  update_raises : option exn;
  publish_update_raises : option exn;
  finalize_raises : option exn
}.

Definition answer {A : Type} (a : A) (raises : option exn) : result A :=
  match raises with
  | None => Return a
  | Some e => Raise e
  end.

Definition scripted (sc : script) : Collaborators ScenarioEvent ScenarioHeap :=
  {| structlog_get_logger := fun _ _ h => (answer 9 (get_logger_raises sc), h);
     Logger_warning := fun _ _ _ h => (answer tt (warning_raises sc), h);
     Logger_info := fun _ _ _ h => (answer tt (info_raises sc), h);
     Logger_exception := fun _ _ _ _ h => (answer tt (exception_raises sc), h);
     PublishService_update :=
       fun _ h => (answer tt (update_raises sc), render "placeholder" h);
     PublishService_publish_update :=
       fun _ text h => (answer tt (publish_update_raises sc), render text h);
     PublishService_finalize :=
       fun _ success h =>
         (answer tt (finalize_raises sc),
          render (if success then "finalized: success" else "finalized: failure") h);
     completions_repo_model := fun _ _ => model_name sc |}.

(** Every collaborator method returns; the model is [model]. *)
Definition quiet (model : string) : script :=
  {| model_name := model;
     get_logger_raises := None;
     warning_raises := None;
     info_raises := None;
     exception_raises := None;
     update_raises := None;
     publish_update_raises := None;
     finalize_raises := None |}.

(** Only the placeholder publish raises. *)
Definition update_down (e : exn) : script :=
  {| model_name := "gpt-4";
     get_logger_raises := None;
     warning_raises := None;
     info_raises := None;
     exception_raises := None;
     update_raises := Some e;
     publish_update_raises := None;
     finalize_raises := None |}.

(** Only finalize raises. *)
Definition finalize_down (e : exn) : script :=
  {| model_name := "gpt-4";
     get_logger_raises := None;
     warning_raises := None;
     info_raises := None;
     exception_raises := None;
     update_raises := None;
     publish_update_raises := None;
     finalize_raises := Some e |}.

(** Only the advisory publish raises; the model is the underpowered one. *)
Definition advisory_down (e : exn) : script :=
  {| model_name := "gpt-3.5-turbo";
     get_logger_raises := None;
     warning_raises := None;
     info_raises := None;
     exception_raises := None;
     update_raises := None;
     publish_update_raises := Some e;
     finalize_raises := None |}.

(** Only the exception-level log call raises. *)
Definition exception_log_down (e : exn) : script :=
  {| model_name := "gpt-4";
     get_logger_raises := None;
     warning_raises := None;
     info_raises := None;
     exception_raises := Some e;
     update_raises := None;
     publish_update_raises := None;
     finalize_raises := None |}.

(** Only [structlog.get_logger] raises. *)
Definition get_logger_down (e : exn) : script :=
  {| model_name := "gpt-4";
     get_logger_raises := Some e;
     warning_raises := None;
     info_raises := None;
     exception_raises := None;
     update_raises := None;
     publish_update_raises := None;
     finalize_raises := None |}.

(** A subclass whose [_generate_pr] returns after one progress line. *)
Definition returning : method ScenarioEvent ScenarioHeap :=
  fun _ s => (Return tt, with_heap s (render "progress" (heap s))).

(** A subclass whose [_generate_pr] rebinds [self.publish_service] to the
    object [ps] and returns. *)
Definition rebinding (ps : ref) : method ScenarioEvent ScenarioHeap :=
  fun _ s =>
    (Return tt,
     {| self_ :=
          {| rail_service := rail_service (self_ s);
             chain_service := chain_service (self_ s);
             diff_service := diff_service (self_ s);
             codegen_agent := codegen_agent (self_ s);
             pull_request_agent := pull_request_agent (self_ s);
             commit_service := commit_service (self_ s);
             publish_service := ps;
             repo := repo (self_ s);
             log := log (self_ s) |};
        heap := heap s |}).

(** A subclass whose [_generate_pr] raises [e]. *)
Definition raising (e : exn) : method ScenarioEvent ScenarioHeap :=
  fun _ s => (Raise e, s).

Definition brain (m : option (method ScenarioEvent ScenarioHeap))
  : BrainClass ScenarioEvent ScenarioHeap :=
  {| id := "scenario-brain"; override_generate_pr := m |}.

Definition agent : BrainAgentBase :=
  {| rail_service := 1;
     chain_service := 2;
     diff_service := 3;
     codegen_agent := 4;
     pull_request_agent := 5;
     commit_service := 6;
     publish_service := 7;
     repo := 8;
     log := 9 |}.

Definition start : state ScenarioHeap :=
  {| self_ := agent;
     heap := {| issue_title := "Fix the build"; progress := [] |} |}.

Definition CollaboratorError (msg : string) : exn :=
  mk_exn (UserClass "CollaboratorError" Exception) [msg].

Definition interrupt : exn := mk_exn KeyboardInterrupt [].

Definition NotImplemented : exn := mk_exn NotImplementedError [].

(** [sys.exit()] inside a collaborator: [SystemExit] derives from
    [BaseException] only. *)
Definition system_exit : exn := mk_exn SystemExit [].

(** A class defined elsewhere that derives from [BaseException] only, as
    [asyncio.CancelledError] does. *)
Definition cancelled : exn := mk_exn (UserClass "CancelledError" BaseException) [].

(** The heap of the scenarios once the placeholder is published, and once
    the advisory is published after it. *)
Definition published : ScenarioHeap := render "placeholder" (heap start).

Definition advised : ScenarioHeap := render gpt35_warning published.

(** The parts of a run. *)
Definition outcome_of_run {S A E : Type} (run : result A * S * list (entry E))
  : result A :=
  fst (fst run).

Definition state_of_run {S A E : Type} (run : result A * S * list (entry E)) : S :=
  snd (fst run).

Definition log_of_run {S A E : Type} (run : result A * S * list (entry E))
  : list (entry E) :=
  snd run.

(** The runs of the worked examples: [generate_pr] on the event
    [IssueOpened 42], from an empty progress list. *)
Definition scenario (sc : script)
  (m : option (method ScenarioEvent ScenarioHeap))
  : result unit * state ScenarioHeap * list (entry ScenarioEvent) :=
  generate_pr (scripted sc) (brain m) (IssueOpened 42) start.

Definition run_ok := scenario (quiet "gpt-4") (Some returning).

Definition run_gpt35 := scenario (quiet "gpt-3.5-turbo") (Some returning).

Definition run_failed :=
  scenario (quiet "gpt-4") (Some (raising (CollaboratorError "diff failed"))).

Definition run_interrupted := scenario (quiet "gpt-4") (Some (raising interrupt)).

Definition run_not_overridden := scenario (quiet "gpt-4") None.

Definition run_exited := scenario (quiet "gpt-4") (Some (raising system_exit)).

Definition run_cancelled := scenario (quiet "gpt-4") (Some (raising cancelled)).

Definition run_rebound := scenario (quiet "gpt-4") (Some (rebinding 70)).

Definition run_update_down :=
  scenario (update_down (CollaboratorError "publish failed")) (Some returning).

Definition run_finalize_down :=
  scenario (finalize_down (CollaboratorError "publish failed"))
    (Some (raising (CollaboratorError "diff failed"))).

(** Construction with one keyword option nobody consumes. *)
Definition construction :=
  __init__ (scripted (quiet "gpt-4")) (brain None) 1 2 3 4 5 6 7 8
    [("temperature", 11)] (heap start).

Definition run_advisory_down :=
  scenario (advisory_down (CollaboratorError "comment rejected")) (Some returning).

Definition run_exception_log_down :=
  scenario (exception_log_down (CollaboratorError "log sink closed"))
    (Some (raising (CollaboratorError "diff failed"))).

Definition run_finalize_true_down :=
  scenario (finalize_down (CollaboratorError "publish failed")) (Some returning).

(** Construction when [structlog.get_logger] raises. *)
Definition construction_without_logger :=
  __init__ (scripted (get_logger_down (CollaboratorError "structlog misconfigured")))
    (brain None) 1 2 3 4 5 6 7 8 [("temperature", 11)] (heap start).

(** ** Proof automation: running the envelope along every path *)

Ltac split_call :=
  match goal with
  | |- context [match ?x with _ => _ end] =>
      lazymatch x with
      | context [match _ with _ => _ end] => fail
      | _ => destruct x eqn:?
      end
  end.

Ltac run_envelope :=
  unfold generate_pr, __init__, bind, invoke, gets, try_except_Exception,
    on_heap, ret, raise;
  cbn beta iota zeta;
  repeat (split_call; cbn beta iota zeta).

Ltac order_facts :=
  repeat match goal with
  | H : Some _ = Some _ |- _ => inversion H; subst; clear H
  | H : None = Some _ |- _ => discriminate H
  | H : false = true |- _ => discriminate H
  | H : forall X, Some (Raised ?e) = Some (Raised X) -> _ |- _ =>
      specialize (H e eq_refl)
  | |- _ /\ _ => split
  | |- forall _, _ => intro
  | |- exists _, _ => first [ exfalso; congruence | eexists ]
  | |- Some _ = Some _ => reflexivity
  end;
  try congruence; try lia.

(** Running the envelope along one path: the calls' results are given by
    hypotheses, which are rewritten in as the calls come up. *)
Ltac walk :=
  unfold generate_pr, bind, invoke, gets, try_except_Exception, on_heap,
    ret, raise, with_heap;
  repeat (cbn [self_ heap fst snd app outcome_of];
          match goal with
          | H : ?f = (_, _) |- context [?f] => rewrite H
          | H : ?b = true |- context [if ?b then _ else _] => rewrite H
          | H : ?b = false |- context [if ?b then _ else _] => rewrite H
          end);
  cbn [self_ heap fst snd app outcome_of].

(** Bringing the equations a path analysis produced together with the
    hypotheses on the same calls. *)
Ltac meet_hypotheses :=
  repeat (unfold with_heap in *; cbn [self_ heap] in *;
          match goal with
          | H1 : ?f = (_, _), H2 : ?f = (_, _) |- _ =>
              rewrite H1 in H2; inversion H2; subst; clear H2
          | Hb : ?b = _, H : (if ?b then _ else _) = _ |- _ =>
              rewrite Hb in H
          | H : (_, _) = (_, _) |- _ => inversion H; subst; clear H
          end).

(** * Properties of the envelope *)

Section Envelope.

Context {EventUnion Heap : Type}.
Variable W : Collaborators EventUnion Heap.
Variable cls : BrainClass EventUnion Heap.

(** The base [_generate_pr] raises [NotImplementedError] whatever the event,
    and changes nothing. *)
Lemma base_generate_pr_raises (event : EventUnion) (s : state Heap) :
  @_generate_pr EventUnion Heap event s
    = (Raise (mk_exn NotImplementedError []), s).
Proof. reflexivity. Qed.

(** The state [generate_pr] ends in is the one its logged calls produce, one
    after the other: the envelope makes no change of its own. *)
Lemma generate_pr_replays (event : EventUnion) (s0 s1 : state Heap)
  (r : result unit) (t : list (entry EventUnion)) :
  generate_pr W cls event s0 = (r, s1, t) ->
  s1 = replay W cls (calls t) s0.
Proof.
  revert r s1 t. run_envelope; intros ? ? ? Hrun;
    inversion Hrun; subst; clear Hrun;
    unfold replay, calls;
    cbn [map app fold_left what effect with_heap self_ heap] in *.
  all: repeat match goal with
       | H : ?f = (_, _) |- context [?f] =>
           rewrite H; cbn [snd with_heap self_ heap]
       end; reflexivity.
Qed.

(** The log [generate_pr] returns is sound: each line records how its call
    ended in the state the calls before it led to. *)
Lemma generate_pr_log_sound (event : EventUnion) (s0 s1 : state Heap)
  (r : result unit) (t : list (entry EventUnion)) :
  generate_pr W cls event s0 = (r, s1, t) ->
  log_sound W cls t s0.
Proof.
  revert r s1 t. run_envelope; intros ? ? ? Hrun;
    inversion Hrun; subst; clear Hrun;
    cbn [app log_sound what how reply effect with_heap self_ heap] in *.
  all: repeat match goal with
       | H : ?f = (_, _) |- context [?f] =>
           rewrite H; cbn [fst snd with_heap self_ heap]
       end; repeat split.
Qed.

Section Started.

(** The run starts from [s0] on [event], and the three calls before
    [_generate_pr] return: the placeholder publish, leaving heap [h1]; the
    advisory, when the model read on [h1] calls for it, leaving [h2]; the
    start log, leaving [h3]. *)
Variable event : EventUnion.
Variable s0 : state Heap.
Variables h1 h2 h3 : Heap.

Hypothesis update_returns :
  PublishService_update W (publish_service (self_ s0)) (heap s0)
    = (Return tt, h1).

Hypothesis advisory_returns :
  (if advisory_due W (self_ s0) h1
   then PublishService_publish_update W (publish_service (self_ s0))
          gpt35_warning h1
   else (Return tt, h1))
    = (Return tt, h2).

Hypothesis start_logged :
  Logger_info W (log (self_ s0)) "Generating changes" event h2
    = (Return tt, h3).

(** The prologue hypotheses, in the form the run meets them. *)
Ltac prologue :=
  pose proof update_returns as Hupdate;
  pose proof start_logged as Hstart;
  pose proof advisory_returns as Hadvisory;
  unfold prologue_log, advisory_log, advisory_due in *;
  revert Hadvisory;
  destruct (completions_repo_model W (rail_service (self_ s0)) h1
            =? "gpt-3.5-turbo")%string eqn:Hdue;
  intros Hadvisory;
  [ | injection Hadvisory as Hsame; subst h2 ].

(** C2. Whenever [_generate_pr], called in the state the prologue leaves,
    returns normally (and the completion log and finalize return),
    [generate_pr] returns normally, in the state those calls lead to; its
    log is the prologue, [_generate_pr], the completion log and
    [finalize(success=True)], so the placeholder publish and finalize calls
    are exactly [update()] followed by [finalize(success=True)], once
    each. *)
Theorem generate_pr_success (s4 : state Heap) (h5 h6 : Heap) :
  resolve_generate_pr cls event (with_heap s0 h3) = (Return tt, s4) ->
  Logger_info W (log (self_ s4)) "Generated changes" event (heap s4)
    = (Return tt, h5) ->
  PublishService_finalize W (publish_service (self_ s4)) true h5
    = (Return tt, h6) ->
  exists t,
    generate_pr W cls event s0 = (Return tt, with_heap s4 h6, t) /\
    t = prologue_log W event (self_ s0) h1
        ++ [ok (GeneratePr event);
            ok (LogInfo (log (self_ s4)) "Generated changes" event);
            ok (Finalize (publish_service (self_ s4)) true)] /\
    publish_signals t
      = [Update (publish_service (self_ s0));
         Finalize (publish_service (self_ s4)) true] /\
    count is_update t = 1 /\
    count is_finalize t = 1.
Proof.
  intros Hgen Hdone Hfinalize. unfold with_heap in Hgen.
  prologue; eexists; (split; [ walk; reflexivity | ]);
    repeat split; reflexivity.
Qed.

(** C1, as amended.  Let [_generate_pr], called in the state the prologue
    leaves, raise [X].  If [X] is an instance of [Exception] (and the
    exception log and finalize return), the log is the prologue,
    [_generate_pr], the exception log and [finalize(success=False)]: the
    placeholder publish and finalize calls are exactly [update()] followed
    by [finalize(success=False)], once each, and [generate_pr] raises [X]
    itself.  If [X] is not an instance of [Exception], the log ends with the
    [_generate_pr] call: [update()] was called once, finalize is not called,
    and [generate_pr] raises [X] itself. *)
Theorem generate_pr_failure (X : exn) (s4 : state Heap) :
  resolve_generate_pr cls event (with_heap s0 h3) = (Raise X, s4) ->
  (isinstance_Exception X = true ->
   forall h5 h6 : Heap,
     Logger_exception W (log (self_ s4)) "Failed to generate pull request"
       event X (heap s4) = (Return tt, h5) ->
     PublishService_finalize W (publish_service (self_ s4)) false h5
       = (Return tt, h6) ->
     exists t,
       generate_pr W cls event s0 = (Raise X, with_heap s4 h6, t) /\
       t = prologue_log W event (self_ s0) h1
           ++ [failed (GeneratePr event) X;
               ok (LogException (log (self_ s4))
                     "Failed to generate pull request" event X);
               ok (Finalize (publish_service (self_ s4)) false)] /\
       publish_signals t
         = [Update (publish_service (self_ s0));
            Finalize (publish_service (self_ s4)) false] /\
       count is_update t = 1 /\
       count is_finalize t = 1) /\
  (isinstance_Exception X = false ->
   exists t,
     generate_pr W cls event s0 = (Raise X, s4, t) /\
     t = prologue_log W event (self_ s0) h1 ++ [failed (GeneratePr event) X] /\
     publish_signals t = [Update (publish_service (self_ s0))] /\
     count is_update t = 1 /\
     count is_finalize t = 0).
Proof.
  intros Hgen. unfold with_heap in Hgen. split.
  - intros Hcaught h5 h6 Hlogged Hfinalize.
    prologue; eexists; (split; [ walk; reflexivity | ]);
      repeat split; reflexivity.
  - intros Hpast.
    prologue; eexists; (split; [ walk; reflexivity | ]);
      repeat split; reflexivity.
Qed.

(** C9. The base [_generate_pr] raises [NotImplementedError] for every event
    and leaves the state alone.  So for a class that does not override it
    (the exception log returning): the log of [generate_pr] is the prologue,
    [_generate_pr] raising [NotImplementedError], the exception log and
    [finalize(success=False)], called once; and [generate_pr] raises
    [NotImplementedError] when that finalize call returns, and what finalize
    raised when it does not. *)
Theorem generate_pr_not_overridden (h5 h6 : Heap) (fr : result unit) :
  override_generate_pr cls = None ->
  Logger_exception W (log (self_ s0)) "Failed to generate pull request"
    event (mk_exn NotImplementedError []) h3 = (Return tt, h5) ->
  PublishService_finalize W (publish_service (self_ s0)) false h5
    = (fr, h6) ->
  (forall (e : EventUnion) (s : state Heap),
     @_generate_pr EventUnion Heap e s
       = (Raise (mk_exn NotImplementedError []), s)) /\
  (forall (e : EventUnion) (s : state Heap),
     resolve_generate_pr cls e s = (Raise (mk_exn NotImplementedError []), s)) /\
  exists t,
    generate_pr W cls event s0
      = (match fr with
         | Return _ => Raise (mk_exn NotImplementedError [])
         | Raise Y => Raise Y
         end,
         with_heap s0 h6, t) /\
    t = prologue_log W event (self_ s0) h1
        ++ [failed (GeneratePr event) (mk_exn NotImplementedError []);
            ok (LogException (log (self_ s0))
                  "Failed to generate pull request" event
                  (mk_exn NotImplementedError []));
            {| what := Finalize (publish_service (self_ s0)) false;
               how := outcome_of fr |}] /\
    finalize_flags t = [false] /\
    count is_finalize t = 1.
Proof.
  intros Hbase Hlogged Hfinalize.
  assert (Hraises : forall (e : EventUnion) (s : state Heap),
             resolve_generate_pr cls e s
               = (Raise (mk_exn NotImplementedError []), s)).
  { intros e s. unfold resolve_generate_pr. rewrite Hbase.
    apply base_generate_pr_raises. }
  split; [ exact base_generate_pr_raises | ].
  split; [ exact Hraises | ].
  assert (Hcaught : isinstance_Exception (mk_exn NotImplementedError []) = true)
    by reflexivity.
  pose proof (Hraises event {| self_ := self_ s0; heap := h3 |}) as Hgen.
  prologue; eexists;
    (split; [ walk; destruct fr as [[]|Y]; reflexivity | ]);
    repeat split; reflexivity.
Qed.

End Started.

(** C3, as amended.  On every path the log is sound, the placeholder publish
    is the first call and the only one of its kind, finalize is called at
    most once and [_generate_pr] at most once and after the placeholder
    publish, and a finalize call comes after the [_generate_pr] call and is
    the last call.  When the three calls before [_generate_pr] return,
    [_generate_pr] is called exactly once; if it returns (and the completion
    log returns), or raises an [Exception] instance (and the exception log
    returns), finalize is called exactly once, with [True] or [False], as
    the last call and after the [_generate_pr] call; if it raises an
    exception that is not an [Exception] instance, finalize is not called
    and that exception is raised to the caller. *)
Theorem generate_pr_signal_order (event : EventUnion) (s0 s1 : state Heap)
  (r : result unit) (t : list (entry EventUnion)) :
  generate_pr W cls event s0 = (r, s1, t) ->
  (log_sound W cls t s0 /\
   position is_update t = Some 0 /\
   count is_update t = 1 /\
   count is_finalize t <= 1 /\
   count is_generate_pr t <= 1 /\
   (forall i, position is_generate_pr t = Some i -> 0 < i) /\
   (forall j, position is_finalize t = Some j ->
      S j = length t /\
      exists i, position is_generate_pr t = Some i /\ i < j)) /\
  (forall (h1 h2 h3 : Heap) (gr : result unit) (s4 : state Heap),
     PublishService_update W (publish_service (self_ s0)) (heap s0)
       = (Return tt, h1) ->
     (if advisory_due W (self_ s0) h1
      then PublishService_publish_update W (publish_service (self_ s0))
             gpt35_warning h1
      else (Return tt, h1))
       = (Return tt, h2) ->
     Logger_info W (log (self_ s0)) "Generating changes" event h2
       = (Return tt, h3) ->
     resolve_generate_pr cls event (with_heap s0 h3) = (gr, s4) ->
     count is_generate_pr t = 1 /\
     match gr with
     | Return _ =>
         forall h5 : Heap,
           Logger_info W (log (self_ s4)) "Generated changes" event (heap s4)
             = (Return tt, h5) ->
           finalize_flags t = [true] /\ finalized_in_order t
     | Raise X =>
         if isinstance_Exception X then
           forall h5 : Heap,
             Logger_exception W (log (self_ s4))
               "Failed to generate pull request" event X (heap s4)
               = (Return tt, h5) ->
             finalize_flags t = [false] /\ finalized_in_order t
         else
           finalize_flags t = [] /\ count is_finalize t = 0 /\ r = Raise X
     end).
Proof.
  intros Hrun. split.
  { split; [ exact (generate_pr_log_sound event s0 s1 r t Hrun) | ].
    revert r s1 t Hrun. run_envelope; intros ? ? ? Hrun;
      inversion Hrun; subst; clear Hrun; cbn.
    all: order_facts. }
  intros h1 h2 h3 gr s4 Hupdate Hadvisory Hstart Hgen.
  unfold advisory_due in Hadvisory. unfold with_heap in Hgen.
  revert r s1 t Hrun. run_envelope; intros ? ? ? Hrun;
    inversion Hrun; subst; clear Hrun; meet_hypotheses.
  all: cbn; unfold finalized_in_order;
    repeat match goal with
    | |- forall h : Heap, _ => intros ? ?; meet_hypotheses
    end;
    cbn; order_facts.
Qed.


(** C6, as amended.  Let [_generate_pr] raise [X].  If [X] is an instance of
    [Exception], it is logged once at exception level with the triggering
    event and [X] itself; when that log call returns, finalize is called
    once, with [success=False]; and when that call returns too, [X] is
    raised to the caller.  If [X] is not an instance of [Exception], nothing
    is logged at exception level, finalize is not called, and [X] is raised
    to the caller. *)
Theorem generate_pr_handles_Exception (event : EventUnion) (s0 s1 : state Heap)
  (r : result unit) (t : list (entry EventUnion)) (X : exn) :
  generate_pr W cls event s0 = (r, s1, t) ->
  outcome_at is_generate_pr t = Some (Raised X) ->
  (isinstance_Exception X = true ->
   calls_of is_log_exception t
     = [LogException (log (self_ s1)) "Failed to generate pull request" event X] /\
   (outcome_at is_log_exception t = Some Returned ->
    finalize_flags t = [false] /\
    (outcome_at is_finalize t = Some Returned -> r = Raise X))) /\
  (isinstance_Exception X = false ->
   calls_of is_log_exception t = [] /\
   finalize_flags t = [] /\
   r = Raise X).
Proof.
  revert r s1 t. run_envelope; intros ? ? ? Hrun;
    inversion Hrun; subst; clear Hrun; cbn;
    intros Hout; try discriminate; inversion Hout; subst; clear Hout.
  all: split; intros Hinst; try congruence; order_facts.
Qed.

(** C7, as amended.  The log is sound and finalize is never called twice.
    When every call on the way to finalize returns, [_generate_pr] is
    called, and finalize is called exactly once with the flag its outcome
    asks for: [True] after a normal return, [False] after an [Exception]
    instance; after an exception that is not one, finalize is not called and
    the exception is raised to the caller.  When a call on the way to
    finalize raises, it is the last call issued, finalize is not called, and
    its exception is raised to the caller. *)
Theorem finalize_once_when_reached (event : EventUnion) (s0 s1 : state Heap)
  (r : result unit) (t : list (entry EventUnion)) :
  generate_pr W cls event s0 = (r, s1, t) ->
  log_sound W cls t s0 /\
  length (finalize_flags t) <= 1 /\
  (calls_before_finalize_returned t = true ->
   exists o,
     outcome_at is_generate_pr t = Some o /\
     finalize_flags t
       = match o with
         | Returned => [true]
         | Raised X => if isinstance_Exception X then [false] else []
         end /\
     (forall X, o = Raised X -> isinstance_Exception X = false ->
        r = Raise X)) /\
  (calls_before_finalize_returned t = false ->
   finalize_flags t = [] /\
   exists c e,
     last_entry t = Some {| what := c; how := Raised e |} /\
     is_generate_pr c || is_finalize c = false /\
     r = Raise e).
Proof.
  intros Hrun.
  split; [ exact (generate_pr_log_sound event s0 s1 r t Hrun) | ].
  revert r s1 t Hrun. run_envelope; intros ? ? ? Hrun;
    inversion Hrun; subst; clear Hrun; cbn.
  all: split; [ lia | split; intros Hret; try discriminate ].
  all: try (split; [ reflexivity | eexists; eexists; repeat split ]; fail).
  all: eexists; split; [ reflexivity | split ].
  all: try (cbn;
            repeat match goal with
            | H : isinstance_Exception _ = _ |- _ => rewrite H
            end; reflexivity).
  all: intros X' HX' Hpast; try discriminate; inversion HX'; subst;
    first [ reflexivity | congruence ].
Qed.

(** C10. If [_generate_pr] raises [X] and the finalize call that follows
    raises [Y], then that finalize call is the failure-path one, it is the
    last call issued, and [generate_pr] raises [Y]: [X] does not reach the
    caller unless it is [Y]. *)
Theorem finalize_failure_replaces_error (event : EventUnion) (s0 s1 : state Heap)
  (r : result unit) (t : list (entry EventUnion)) (X Y : exn) :
  generate_pr W cls event s0 = (r, s1, t) ->
  outcome_at is_generate_pr t = Some (Raised X) ->
  outcome_at is_finalize t = Some (Raised Y) ->
  r = Raise Y /\
  finalize_flags t = [false] /\
  last (calls t) (GeneratePr event) = Finalize (publish_service (self_ s1)) false /\
  (X <> Y -> r <> Raise X).
Proof.
  revert r s1 t. run_envelope; intros ? ? ? Hrun;
    inversion Hrun; subst; clear Hrun; cbn;
    intros Hgen Hfin; try discriminate;
    inversion Hgen; subst; clear Hgen; inversion Hfin; subst; clear Hfin.
  all: repeat split; intros HXY Heq; apply HXY; congruence.
Qed.

(** Whatever every replayed call leaves alone, the replay leaves alone. *)
Lemma replay_preserves {V : Type} (view : state Heap -> V)
  (cs : list (call EventUnion)) :
  (forall c s, In c cs -> view (effect W cls c s) = view s) ->
  forall s, view (replay W cls cs s) = view s.
Proof.
  unfold replay. induction cs as [|c cs IH]; intros Hcs s; cbn.
  - reflexivity.
  - rewrite IH.
    + apply Hcs. left. reflexivity.
    + intros c' s' Hin. apply Hcs. right. exact Hin.
Qed.

(** A collaborator's method cannot reach the agent's attributes: only
    [_generate_pr] runs on [self]. *)
Lemma effect_self (c : call EventUnion) (s : state Heap) :
  is_generate_pr c = false -> self_ (effect W cls c s) = self_ s.
Proof. destruct c; cbn; intros Hc; (reflexivity || discriminate). Qed.

(** Every logged call that carries an event carries the one passed in, and
    the only method called on [self] is [_generate_pr] with that event. *)
Lemma generate_pr_passes_event (event : EventUnion) (s0 s1 : state Heap)
  (r : result unit) (t : list (entry EventUnion)) (c : call EventUnion) :
  generate_pr W cls event s0 = (r, s1, t) ->
  In c (calls t) ->
  is_generate_pr c = true -> c = GeneratePr event.
Proof.
  revert r s1 t. run_envelope; intros ? ? ? Hrun;
    inversion Hrun; subst; clear Hrun; cbn; intros Hin Hc.
  all: repeat match goal with
       | H : _ \/ _ |- _ => destruct H
       | H : False |- _ => destruct H
       end; subst; try discriminate; reflexivity.
Qed.

(** C8. [generate_pr] changes neither the agent's attributes nor the event of
    its own: if [_generate_pr] leaves [self]'s attributes as they are and the
    calls issued leave the event's value in the heap as it is, then after the
    call, however it ended, the attributes (the eight collaborator handles
    among them) and the event's value are what they were before. *)
Theorem generate_pr_frame {V : Type} (event_value : EventUnion -> Heap -> V)
  (event : EventUnion) (s0 s1 : state Heap)
  (r : result unit) (t : list (entry EventUnion)) :
  generate_pr W cls event s0 = (r, s1, t) ->
  (forall s, self_ (snd (resolve_generate_pr cls event s)) = self_ s) ->
  (forall c s, In c (calls t) ->
     event_value event (heap (effect W cls c s)) = event_value event (heap s)) ->
  self_ s1 = self_ s0 /\
  event_value event (heap s1) = event_value event (heap s0).
Proof.
  intros Hrun Hself Hevent.
  rewrite (generate_pr_replays event s0 s1 r t Hrun). split.
  - apply (replay_preserves self_). intros c s Hin.
    destruct (is_generate_pr c) eqn:Hc.
    + rewrite (generate_pr_passes_event event s0 s1 r t c Hrun Hin Hc).
      cbn. apply Hself.
    + apply effect_self. exact Hc.
  - apply (replay_preserves (fun s => event_value event (heap s))).
    intros c s Hin. apply Hevent. exact Hin.
Qed.


End Envelope.

(** * Worked examples *)

(** The specification's first scenario: [_generate_pr] returns; the run
    returns, with the progress lines of the placeholder, of [_generate_pr]
    and of the successful finalize; the publish signals are the placeholder
    publish, then [finalize(success=True)]. *)
Lemma generate_pr_success_scenario :
  exists t,
    run_ok
      = (Return tt,
         with_heap start
           (render "finalized: success" (render "progress" published)), t) /\
    t = prologue_log (scripted (quiet "gpt-4")) (IssueOpened 42) agent published
        ++ [ok (GeneratePr (IssueOpened 42));
            ok (LogInfo 9 "Generated changes" (IssueOpened 42));
            ok (Finalize 7 true)] /\
    publish_signals t = [Update 7; Finalize 7 true] /\
    count is_update t = 1 /\
    count is_finalize t = 1.
Proof.
  apply (generate_pr_success (scripted (quiet "gpt-4")) (brain (Some returning))
           (IssueOpened 42) start published published published
           eq_refl eq_refl eq_refl
           (with_heap start (render "progress" published))
           (render "progress" published)
           (render "finalized: success" (render "progress" published))).
  - reflexivity.
  - reflexivity.
  - reflexivity.
Defined.

(** The specification's second scenario: [_generate_pr] raises
    [CollaboratorError("diff failed")]; the publish signals are the
    placeholder publish, then [finalize(success=False)], and the caller gets
    that error. *)
Lemma generate_pr_failure_scenario :
  exists t,
    run_failed
      = (Raise (CollaboratorError "diff failed"),
         with_heap start (render "finalized: failure" published), t) /\
    t = prologue_log (scripted (quiet "gpt-4")) (IssueOpened 42) agent published
        ++ [failed (GeneratePr (IssueOpened 42)) (CollaboratorError "diff failed");
            ok (LogException 9 "Failed to generate pull request"
                  (IssueOpened 42) (CollaboratorError "diff failed"));
            ok (Finalize 7 false)] /\
    publish_signals t = [Update 7; Finalize 7 false] /\
    count is_update t = 1 /\
    count is_finalize t = 1.
Proof.
  destruct (generate_pr_failure (scripted (quiet "gpt-4"))
              (brain (Some (raising (CollaboratorError "diff failed"))))
              (IssueOpened 42) start published published published
              eq_refl eq_refl eq_refl
              (CollaboratorError "diff failed") (with_heap start published)
              eq_refl)
    as [Hcaught _].
  exact (Hcaught eq_refl published (render "finalized: failure" published)
           eq_refl eq_refl).
Defined.

(** [_generate_pr] ends in [SystemExit], which is not an instance of
    [Exception], with every collaborator in order: the placeholder publish
    is the only publish signal and finalize is not called. *)
Lemma system_exit_skips_finalize :
  outcome_at is_generate_pr (log_of_run run_exited) = Some (Raised system_exit) /\
  collaborators_returned (log_of_run run_exited) = true /\
  publish_signals (log_of_run run_exited) = [Update 7] /\
  count is_finalize (log_of_run run_exited) = 0 /\
  outcome_of_run run_exited = Raise system_exit.
Proof. repeat split; reflexivity. Qed.

(** The specification's third scenario, with the underpowered model: one
    [_generate_pr] call, one finalize call, with [success=True], in the
    order placeholder publish, [_generate_pr], finalize. *)
Lemma generate_pr_signal_order_scenario :
  count is_generate_pr (log_of_run run_gpt35) = 1 /\
  finalize_flags (log_of_run run_gpt35) = [true] /\
  finalized_in_order (log_of_run run_gpt35).
Proof.
  destruct (generate_pr_signal_order (scripted (quiet "gpt-3.5-turbo"))
              (brain (Some returning)) (IssueOpened 42) start
              (state_of_run run_gpt35) (outcome_of_run run_gpt35)
              (log_of_run run_gpt35) eq_refl)
    as [_ Hstarted].
  destruct (Hstarted published advised advised (Return tt)
              (with_heap start (render "progress" advised))
              eq_refl eq_refl eq_refl eq_refl)
    as [Honce Hreturned].
  exact (conj Honce (Hreturned (render "progress" advised) eq_refl)).
Defined.

(** [_generate_pr] is cancelled, by an exception class that derives from
    [BaseException] only, with every collaborator in order: the invocation
    ends with no finalize call at all. *)
Lemma cancelled_run_is_not_finalized :
  collaborators_returned (log_of_run run_cancelled) = true /\
  count is_update (log_of_run run_cancelled) = 1 /\
  count is_generate_pr (log_of_run run_cancelled) = 1 /\
  count is_finalize (log_of_run run_cancelled) = 0 /\
  outcome_of_run run_cancelled = Raise cancelled.
Proof. repeat split; reflexivity. Qed.


(** With [gpt-4] configured no advisory is published. *)
Example no_advisory_for_gpt4 :
  count is_publish_update (log_of_run run_ok) = 0.
Proof. reflexivity. Qed.

(** The comparison is on the whole string: a longer identifier that starts
    with the sentinel gets no advisory. *)
Example no_advisory_for_gpt35_16k :
  count is_publish_update
    (log_of_run (scenario (quiet "gpt-3.5-turbo-16k") (Some returning))) = 0.
Proof. reflexivity. Qed.

(** The whole call sequence of the third scenario. *)
Example gpt35_call_sequence :
  calls (log_of_run run_gpt35)
    = [Update 7;
       PublishUpdate 7 gpt35_warning;
       LogInfo 9 "Generating changes" (IssueOpened 42);
       GeneratePr (IssueOpened 42);
       LogInfo 9 "Generated changes" (IssueOpened 42);
       Finalize 7 true].
Proof. reflexivity. Qed.


(** What the run of the example construction is. *)
Example construction_run :
  construction
    = (Return agent, heap start,
       [{| what := GetLogger "brain" "scenario-brain"; how := Returned |};
        {| what := LogWarning 9 "Brain did not use additional options"
                     [("temperature", 11)];
           how := Returned |}]).
Proof. reflexivity. Qed.

(** [KeyboardInterrupt] is not an instance of [Exception]: when
    [_generate_pr] raises it, with every collaborator in order, nothing is
    logged at exception level and finalize is not called; the pull request
    stays as the placeholder publish left it. *)
Lemma keyboard_interrupt_bypasses_handler :
  outcome_at is_generate_pr (log_of_run run_interrupted) = Some (Raised interrupt) /\
  collaborators_returned (log_of_run run_interrupted) = true /\
  count is_log_exception (log_of_run run_interrupted) = 0 /\
  count is_finalize (log_of_run run_interrupted) = 0 /\
  outcome_of_run run_interrupted = Raise interrupt /\
  calls (log_of_run run_interrupted)
    = [Update 7;
       LogInfo 9 "Generating changes" (IssueOpened 42);
       GeneratePr (IssueOpened 42)].
Proof. repeat split; reflexivity. Qed.

(** The failure path on an [Exception] instance: logged with the event and
    the error, finalized with [success=False], raised to the caller. *)
Lemma handled_Exception_scenario :
  calls_of is_log_exception (log_of_run run_failed)
    = [LogException 9 "Failed to generate pull request" (IssueOpened 42)
         (CollaboratorError "diff failed")] /\
  finalize_flags (log_of_run run_failed) = [false] /\
  outcome_of_run run_failed = Raise (CollaboratorError "diff failed").
Proof.
  destruct (generate_pr_handles_Exception (scripted (quiet "gpt-4"))
              (brain (Some (raising (CollaboratorError "diff failed"))))
              (IssueOpened 42) start (state_of_run run_failed)
              (outcome_of_run run_failed) (log_of_run run_failed)
              (CollaboratorError "diff failed") eq_refl eq_refl)
    as [Hcaught _].
  destruct (Hcaught eq_refl) as [Hlogged Hthen].
  destruct (Hthen eq_refl) as [Hflags Hraised].
  exact (conj Hlogged (conj Hflags (Hraised eq_refl))).
Defined.

(** When the placeholder publish itself raises, the error goes straight to
    the caller: [update()] is the only call issued and finalize is never
    called. *)
Lemma update_failure_skips_finalize :
  outcome_of_run run_update_down = Raise (CollaboratorError "publish failed") /\
  calls (log_of_run run_update_down) = [Update 7] /\
  count is_finalize (log_of_run run_update_down) = 0.
Proof. repeat split; reflexivity. Qed.

(** On the failure path of the second scenario the log is sound and
    finalize is called once, with [success=False]. *)
Lemma finalize_once_scenario :
  log_sound (scripted (quiet "gpt-4"))
    (brain (Some (raising (CollaboratorError "diff failed"))))
    (log_of_run run_failed) start /\
  length (finalize_flags (log_of_run run_failed)) <= 1 /\
  exists o,
    outcome_at is_generate_pr (log_of_run run_failed) = Some o /\
    finalize_flags (log_of_run run_failed)
      = match o with
        | Returned => [true]
        | Raised X => if isinstance_Exception X then [false] else []
        end /\
    (forall X, o = Raised X -> isinstance_Exception X = false ->
       outcome_of_run run_failed = Raise X).
Proof.
  destruct (finalize_once_when_reached (scripted (quiet "gpt-4"))
              (brain (Some (raising (CollaboratorError "diff failed"))))
              (IssueOpened 42) start (state_of_run run_failed)
              (outcome_of_run run_failed) (log_of_run run_failed) eq_refl)
    as [Hsound [Hmost [Hreached _]]].
  exact (conj Hsound (conj Hmost (Hreached eq_refl))).
Defined.

(** Soundness is a real constraint: where the placeholder publish raises, a
    log that records it as returned is not sound. *)
Example fabricated_log_is_unsound :
  log_sound (scripted (update_down (CollaboratorError "publish failed")))
    (brain (Some returning)) [ok (Update 7)] start
  <-> False.
Proof.
  split.
  - intros [Hhow _]. discriminate Hhow.
  - intros [].
Qed.

(** When the placeholder publish raises, that call is the last one and its
    exception is what the caller gets. *)
Example update_failure_reaches_caller :
  last_entry (log_of_run run_update_down)
    = Some (failed (Update 7) (CollaboratorError "publish failed")) /\
  outcome_of_run run_update_down = Raise (CollaboratorError "publish failed").
Proof. split; reflexivity. Qed.

(** In the first scenario the agent's attributes and the issue title in the
    heap are after the call what they were before it. *)
Lemma generate_pr_frame_scenario :
  self_ (state_of_run run_ok) = agent /\
  issue_title (heap (state_of_run run_ok)) = "Fix the build".
Proof.
  apply (generate_pr_frame (scripted (quiet "gpt-4")) (brain (Some returning))
           (fun _ h => issue_title h) (IssueOpened 42) start
           (state_of_run run_ok) (outcome_of_run run_ok) (log_of_run run_ok)).
  - reflexivity.
  - intros s. reflexivity.
  - intros c s Hin. destruct c; reflexivity.
Defined.

(** The progress lines do change: the frame is about the agent and the
    event, not about the pull request. *)
Example progress_of_run_ok :
  progress (heap (state_of_run run_ok))
    = ["placeholder"; "progress"; "finalized: success"].
Proof. reflexivity. Qed.

(** Attributes are looked up when they are used: a [_generate_pr] that
    rebinds [self.publish_service] has finalize called on the new object, and
    the agent ends with it.  The frame needs its hypothesis on
    [_generate_pr]. *)
Example rebound_publish_service :
  publish_signals (log_of_run run_rebound) = [Update 7; Finalize 70 true] /\
  publish_service (self_ (state_of_run run_rebound)) = 70.
Proof. split; reflexivity. Qed.

(** A class that keeps the base [_generate_pr]: finalize is called with
    [success=False], its progress line is rendered, and the caller gets
    [NotImplementedError]. *)
Lemma not_overridden_scenario :
  (forall (e : ScenarioEvent) (s : state ScenarioHeap),
     _generate_pr e s = (Raise NotImplemented, s)) /\
  (forall (e : ScenarioEvent) (s : state ScenarioHeap),
     resolve_generate_pr (brain None) e s = (Raise NotImplemented, s)) /\
  exists t,
    run_not_overridden
      = (Raise NotImplemented,
         with_heap start (render "finalized: failure" published), t) /\
    t = prologue_log (scripted (quiet "gpt-4")) (IssueOpened 42) agent published
        ++ [failed (GeneratePr (IssueOpened 42)) NotImplemented;
            ok (LogException 9 "Failed to generate pull request"
                  (IssueOpened 42) NotImplemented);
            ok (Finalize 7 false)] /\
    finalize_flags t = [false] /\
    count is_finalize t = 1.
Proof.
  apply (generate_pr_not_overridden (scripted (quiet "gpt-4")) (brain None)
           (IssueOpened 42) start published published published
           eq_refl eq_refl eq_refl
           published (render "finalized: failure" published) (Return tt)).
  - reflexivity.
  - reflexivity.
  - reflexivity.
Defined.

(** What the caller of the class that keeps the base method gets. *)
Example not_overridden_outcome :
  outcome_of_run run_not_overridden = Raise NotImplemented.
Proof. reflexivity. Qed.

(** [_generate_pr] raises "diff failed" and the failure-path finalize raises
    "publish failed": the caller gets "publish failed". *)
Lemma finalize_failure_scenario :
  outcome_of_run run_finalize_down = Raise (CollaboratorError "publish failed") /\
  finalize_flags (log_of_run run_finalize_down) = [false] /\
  last (calls (log_of_run run_finalize_down)) (GeneratePr (IssueOpened 42))
    = Finalize 7 false /\
  (CollaboratorError "diff failed" <> CollaboratorError "publish failed" ->
   outcome_of_run run_finalize_down <> Raise (CollaboratorError "diff failed")).
Proof.
  apply (finalize_failure_replaces_error
           (scripted (finalize_down (CollaboratorError "publish failed")))
           (brain (Some (raising (CollaboratorError "diff failed"))))
           (IssueOpened 42) start (state_of_run run_finalize_down)).
  - reflexivity.
  - reflexivity.
  - reflexivity.
Defined.

(** The two errors of that scenario differ, so the original one is lost. *)
Example finalize_failure_loses_original :
  outcome_of_run run_finalize_down <> Raise (CollaboratorError "diff failed").
Proof. discriminate. Qed.


(** * Further properties of the class *)

Ltac open_run :=
  run_envelope; intros ? ? ? Hrun; inversion Hrun; subst; clear Hrun; cbn.

Ltac case_in :=
  repeat match goal with
  | H : _ \/ _ |- _ => destruct H
  | H : False |- _ => destruct H
  end.

Section Further.

Context {EventUnion Heap : Type}.
Variable W : Collaborators EventUnion Heap.
Variable cls : BrainClass EventUnion Heap.

(** X1. [generate_pr] neither swallows an error nor raises one of its own: it
    returns exactly when every call it issued returned, [_generate_pr]
    included, and an exception it raises was raised by one of its calls. *)
Theorem generate_pr_returns_iff_calls_returned (event : EventUnion)
  (s0 s1 : state Heap) (r : result unit) (t : list (entry EventUnion)) :
  generate_pr W cls event s0 = (r, s1, t) ->
  (r = Return tt <-> all_returned t = true) /\
  (forall e, r = Raise e -> exists c, In {| what := c; how := Raised e |} t).
Proof.
  revert r s1 t. open_run.
  all: repeat match goal with
       | u : unit |- _ => destruct u
       | r : result unit |- _ => destruct r as [[]|?]; cbn
       end.
  all: split; [ split; intros Heq; (reflexivity || discriminate)
              | intros e' He; try discriminate; inversion He; subst;
                eexists; eauto 10 ].
Qed.

(** X2. Generation is gated by what comes before it: when [_generate_pr] is
    called, every earlier call returned; when it is not, the last call
    issued is the placeholder publish, the advisory publish or the start
    log, it raised, its exception is what the caller gets, and neither the
    exception log nor finalize is called. *)
Theorem generation_gated (event : EventUnion)
  (s0 s1 : state Heap) (r : result unit) (t : list (entry EventUnion)) :
  generate_pr W cls event s0 = (r, s1, t) ->
  (forall i, position is_generate_pr t = Some i ->
     all_returned (firstn i t) = true) /\
  (position is_generate_pr t = None ->
   exists c e,
     last_entry t = Some {| what := c; how := Raised e |} /\
     is_update c || is_publish_update c || is_log_info c = true /\
     r = Raise e /\
     count is_log_exception t = 0 /\
     count is_finalize t = 0).
Proof.
  revert r s1 t. open_run.
  all: split; [ intros i Hi; inversion Hi; subst; reflexivity
              | intros Hnone; try discriminate;
                eexists; eexists; repeat split ].
Qed.

(** X3. If the exception-level log call raises [Y], the handler stops there:
    finalize is not called, the log call is the last call issued, and the
    caller gets [Y] in place of the exception [_generate_pr] raised. *)
Theorem exception_log_failure_skips_finalize (event : EventUnion)
  (s0 s1 : state Heap) (r : result unit) (t : list (entry EventUnion))
  (Y : exn) :
  generate_pr W cls event s0 = (r, s1, t) ->
  outcome_at is_log_exception t = Some (Raised Y) ->
  r = Raise Y /\
  finalize_flags t = [] /\
  exists X,
    outcome_at is_generate_pr t = Some (Raised X) /\
    isinstance_Exception X = true /\
    last_entry t
      = Some {| what := LogException (log (self_ s1))
                          "Failed to generate pull request" event X;
                how := Raised Y |}.
Proof.
  revert r s1 t. open_run.
  all: intros Hlog; try discriminate; inversion Hlog; subst; clear Hlog.
  all: repeat split; eexists; repeat split; assumption.
Qed.

(** X4. Once [_generate_pr] has returned, the failure handler is out of
    reach: whatever the completion log or [finalize(success=True)] then do,
    nothing is logged at exception level and [finalize(success=False)] is
    never called; an exception the caller gets was raised by the last call
    issued, which is that log call or that finalize call. *)
Theorem success_path_errors_unhandled (event : EventUnion)
  (s0 s1 : state Heap) (r : result unit) (t : list (entry EventUnion)) :
  generate_pr W cls event s0 = (r, s1, t) ->
  outcome_at is_generate_pr t = Some Returned ->
  count is_log_exception t = 0 /\
  (finalize_flags t = [] \/ finalize_flags t = [true]) /\
  (forall e, r = Raise e ->
   exists c,
     last_entry t = Some {| what := c; how := Raised e |} /\
     (c = LogInfo (log (self_ s1)) "Generated changes" event \/
      c = Finalize (publish_service (self_ s1)) true)).
Proof.
  revert r s1 t. open_run.
  all: intros Hgen; try discriminate.
  all: repeat match goal with
       | u : unit |- _ => destruct u
       | r : result unit |- _ => destruct r as [[]|?]; cbn
       end.
  all: split; [ reflexivity | split; [ auto | ] ].
  all: intros e' He; try discriminate.
  all: inversion He; subst; eexists; split; [ reflexivity | auto ].
Qed.

(** X5. The event is handed on as it came: every call that is given an event
    (the two info logs, the exception log, [_generate_pr]) is given the one
    [generate_pr] received. *)
Theorem generate_pr_hands_event_on (event : EventUnion)
  (s0 s1 : state Heap) (r : result unit) (t : list (entry EventUnion))
  (c : call EventUnion) (ev : EventUnion) :
  generate_pr W cls event s0 = (r, s1, t) ->
  In c (calls t) ->
  event_of_call c = Some ev ->
  ev = event.
Proof.
  revert r s1 t. open_run.
  all: intros Hin Hev; case_in; subst; cbn in Hev;
    try discriminate; inversion Hev; reflexivity.
Qed.

(** X6. Nothing is retried: on every path [generate_pr] issues at least one
    and at most six calls, the advisory and the exception log at most once
    each, the info log at most twice, and it never builds a logger or logs a
    warning. *)
Theorem generate_pr_call_budget (event : EventUnion)
  (s0 s1 : state Heap) (r : result unit) (t : list (entry EventUnion)) :
  generate_pr W cls event s0 = (r, s1, t) ->
  1 <= length t /\
  length t <= 6 /\
  count is_publish_update t <= 1 /\
  count is_log_exception t <= 1 /\
  count is_log_info t <= 2 /\
  count is_logger_setup t = 0.
Proof.
  revert r s1 t. open_run.
  all: repeat split; lia.
Qed.

(** X7. The info log tells the truth about the run: the messages are, in
    order, a prefix of "Generating changes", "Generated changes"; and
    "Generated changes" is logged only after [_generate_pr] returned, never
    in a run that logs an exception. *)
Theorem info_messages_follow_the_run (event : EventUnion)
  (s0 s1 : state Heap) (r : result unit) (t : list (entry EventUnion)) :
  generate_pr W cls event s0 = (r, s1, t) ->
  (info_messages t = [] \/
   info_messages t = ["Generating changes"] \/
   info_messages t = ["Generating changes"; "Generated changes"]) /\
  (In "Generated changes" (info_messages t) ->
   outcome_at is_generate_pr t = Some Returned /\
   count is_log_exception t = 0).
Proof.
  revert r s1 t. open_run.
  all: split; [ auto | intros Hin; case_in; try discriminate; auto ].
Qed.

(** X8. The logger of a constructed agent: the first call of [__init__] is
    [structlog.get_logger(service="brain", id=<the class id>)].  If it
    raises, construction raises the same exception, leaves the heap as that
    call left it, and logs no warning.  If it returns a logger, that logger
    becomes [self.log], and the warning about unused options, when there is
    one, is the only other call and goes to it. *)
Theorem init_binds_logger
  (rail_service0 chain_service0 diff_service0 codegen_agent0
   pull_request_agent0 commit_service0 publish_service0 repo0 : ref)
  (kwargs : list (string * ref)) (h0 h1 hg : Heap)
  (r : result BrainAgentBase) (gr : result ref) (t : list (entry EventUnion)) :
  __init__ W cls rail_service0 chain_service0 diff_service0 codegen_agent0
    pull_request_agent0 commit_service0 publish_service0 repo0 kwargs h0
    = (r, h1, t) ->
  structlog_get_logger W "brain" (id cls) h0 = (gr, hg) ->
  (forall e, gr = Raise e ->
     r = Raise e /\ h1 = hg /\ calls t = [GetLogger "brain" (id cls)]) /\
  (forall lg, gr = Return lg ->
     (forall self, r = Return self -> log self = lg) /\
     calls t
       = GetLogger "brain" (id cls)
         :: (if truthy kwargs
             then [LogWarning lg "Brain did not use additional options" kwargs]
             else [])).
Proof.
  revert r h1 t gr hg. destruct kwargs as [|kv kwargs']; run_envelope;
    intros ? ? ? ? ? Hrun Hget;
    inversion Hrun; subst; clear Hrun; inversion Hget; subst; clear Hget;
    cbn in *; try discriminate.
  all: split; [ intros e' He | intros lg' Hlg ]; try discriminate.
  all: try (inversion He; subst; repeat split; reflexivity).
  all: inversion Hlg; subst; split; [ | reflexivity ].
  all: intros self Hself; try discriminate; inversion Hself; reflexivity.
Qed.

(** X9. Construction returns an agent exactly when every structlog call it
    issued returned, it issues at most two calls, and it never calls the
    publish service or [_generate_pr]: building an agent publishes
    nothing. *)
Theorem init_returns_iff_calls_returned
  (rail_service0 chain_service0 diff_service0 codegen_agent0
   pull_request_agent0 commit_service0 publish_service0 repo0 : ref)
  (kwargs : list (string * ref)) (h0 h1 : Heap)
  (r : result BrainAgentBase) (t : list (entry EventUnion)) :
  __init__ W cls rail_service0 chain_service0 diff_service0 codegen_agent0
    pull_request_agent0 commit_service0 publish_service0 repo0 kwargs h0
    = (r, h1, t) ->
  ((exists self, r = Return self) <-> all_returned t = true) /\
  1 <= length t /\
  length t <= 2 /\
  count is_publish_call t = 0 /\
  count is_generate_pr t = 0.
Proof.
  revert r h1 t. run_envelope; intros ? ? ? Hrun;
    inversion Hrun; subst; clear Hrun; cbn.
  all: repeat match goal with
       | u : unit |- _ => destruct u
       | r : result unit |- _ => destruct r as [[]|?]; cbn
       end.
  all: split; [ | repeat split; lia ].
  all: split; [ intros [self Hself]; (reflexivity || discriminate)
              | intros Hall; try discriminate ].
  all: eexists; reflexivity.
Qed.

(** X10. Construction and [generate_pr] together: on the agent [__init__]
    returned, with a [_generate_pr] that does not rebind [self]'s
    attributes, every publish-service call of [generate_pr] is made on the
    publish service passed to the constructor, and every log call on the
    logger [structlog.get_logger] returned to the constructor. *)
Theorem constructed_agent_calls_its_collaborators
  (rail_service0 chain_service0 diff_service0 codegen_agent0
   pull_request_agent0 commit_service0 publish_service0 repo0 : ref)
  (kwargs : list (string * ref)) (h0 h1 : Heap) (self : BrainAgentBase)
  (t0 : list (entry EventUnion))
  (event : EventUnion) (s1 : state Heap) (r : result unit)
  (t : list (entry EventUnion)) (c : call EventUnion) (rcv : ref) :
  __init__ W cls rail_service0 chain_service0 diff_service0 codegen_agent0
    pull_request_agent0 commit_service0 publish_service0 repo0 kwargs h0
    = (Return self, h1, t0) ->
  generate_pr W cls event {| self_ := self; heap := h1 |} = (r, s1, t) ->
  (forall s, self_ (snd (resolve_generate_pr cls event s)) = self_ s) ->
  In c (calls t) ->
  receiver c = Some rcv ->
  (is_publish_call c = true -> rcv = publish_service0) /\
  (is_publish_call c = false ->
   fst (structlog_get_logger W "brain" (id cls) h0) = Return rcv).
Proof.
  intros Hinit Hrun Hself.
  assert (Hfields : publish_service self = publish_service0 /\
                    fst (structlog_get_logger W "brain" (id cls) h0)
                      = Return (log self)).
  { revert Hinit. clear. run_envelope; intros Hinit;
      inversion Hinit; subst; split; reflexivity. }
  destruct Hfields as [Hps Hlg]. rewrite Hlg. clear Hinit Hlg.
  subst publish_service0.
  revert r s1 t Hrun. run_envelope; intros ? ? ? Hrun;
    inversion Hrun; subst; clear Hrun;
    repeat match goal with
    | H : resolve_generate_pr cls event ?st = (_, ?s') |- _ =>
        let Hs := fresh "Hs" in
        pose proof (Hself st) as Hs; rewrite H in Hs;
        cbn [snd with_heap self_ heap] in Hs; clear H
    end;
    cbn; intros Hin Hrcv; case_in; subst; cbn in Hrcv;
    try discriminate; inversion Hrcv; subst; cbn;
    repeat match goal with
    | Hs : self_ _ = _ |- _ => rewrite Hs
    end;
    split; intros Hp; (reflexivity || discriminate).
Qed.

End Further.

(** * Further worked examples *)

(** The second scenario raises, and its log has a call that raised: the
    [_generate_pr] call. *)
Lemma returns_iff_scenario :
  (outcome_of_run run_failed = Return tt <->
   all_returned (log_of_run run_failed) = true) /\
  (forall e, outcome_of_run run_failed = Raise e ->
   exists c, In {| what := c; how := Raised e |} (log_of_run run_failed)).
Proof.
  apply (generate_pr_returns_iff_calls_returned (scripted (quiet "gpt-4"))
           (brain (Some (raising (CollaboratorError "diff failed"))))
           (IssueOpened 42) start (state_of_run run_failed)).
  reflexivity.
Defined.

(** The first scenario returns, and every call of its log returned. *)
Example all_returned_run_ok :
  outcome_of_run run_ok = Return tt /\ all_returned (log_of_run run_ok) = true.
Proof. split; reflexivity. Qed.

(** The advisory publish raises: [_generate_pr] is never called, the caller
    gets the advisory's exception, and the pull request is not finalized. *)
Lemma advisory_failure_scenario :
  position is_generate_pr (log_of_run run_advisory_down) = None /\
  exists c e,
    last_entry (log_of_run run_advisory_down)
      = Some {| what := c; how := Raised e |} /\
    is_update c || is_publish_update c || is_log_info c = true /\
    outcome_of_run run_advisory_down = Raise e /\
    count is_log_exception (log_of_run run_advisory_down) = 0 /\
    count is_finalize (log_of_run run_advisory_down) = 0.
Proof.
  split.
  - reflexivity.
  - apply (generation_gated (scripted (advisory_down (CollaboratorError "comment rejected")))
             (brain (Some returning)) (IssueOpened 42) start
             (state_of_run run_advisory_down) (outcome_of_run run_advisory_down)).
    + reflexivity.
    + reflexivity.
Defined.

(** What the caller gets when the advisory publish raises. *)
Example advisory_failure_outcome :
  outcome_of_run run_advisory_down = Raise (CollaboratorError "comment rejected") /\
  calls (log_of_run run_advisory_down) = [Update 7; PublishUpdate 7 gpt35_warning].
Proof. split; reflexivity. Qed.

(** [_generate_pr] raises "diff failed" and the exception log raises "log
    sink closed": no finalize, and the caller gets "log sink closed". *)
Lemma exception_log_failure_scenario :
  outcome_of_run run_exception_log_down
    = Raise (CollaboratorError "log sink closed") /\
  finalize_flags (log_of_run run_exception_log_down) = [] /\
  exists X,
    outcome_at is_generate_pr (log_of_run run_exception_log_down)
      = Some (Raised X) /\
    isinstance_Exception X = true /\
    last_entry (log_of_run run_exception_log_down)
      = Some {| what := LogException 9 "Failed to generate pull request"
                          (IssueOpened 42) X;
                how := Raised (CollaboratorError "log sink closed") |}.
Proof.
  apply (exception_log_failure_skips_finalize
           (scripted (exception_log_down (CollaboratorError "log sink closed")))
           (brain (Some (raising (CollaboratorError "diff failed"))))
           (IssueOpened 42) start (state_of_run run_exception_log_down)).
  - reflexivity.
  - reflexivity.
Defined.

(** [_generate_pr] returns and [finalize(success=True)] raises: the caller
    gets that exception, and [finalize(success=False)] is not tried. *)
Lemma finalize_true_failure_scenario :
  count is_log_exception (log_of_run run_finalize_true_down) = 0 /\
  (finalize_flags (log_of_run run_finalize_true_down) = [] \/
   finalize_flags (log_of_run run_finalize_true_down) = [true]) /\
  (forall e, outcome_of_run run_finalize_true_down = Raise e ->
   exists c,
     last_entry (log_of_run run_finalize_true_down)
       = Some {| what := c; how := Raised e |} /\
     (c = LogInfo 9 "Generated changes" (IssueOpened 42) \/
      c = Finalize 7 true)).
Proof.
  apply (success_path_errors_unhandled
           (scripted (finalize_down (CollaboratorError "publish failed")))
           (brain (Some returning)) (IssueOpened 42) start
           (state_of_run run_finalize_true_down)).
  - reflexivity.
  - reflexivity.
Defined.

(** What that run is: a raise, after a single finalize call. *)
Example finalize_true_failure_outcome :
  outcome_of_run run_finalize_true_down = Raise (CollaboratorError "publish failed") /\
  finalize_flags (log_of_run run_finalize_true_down) = [true].
Proof. split; reflexivity. Qed.

(** The exception log of the second scenario is given the scenario's event. *)
Lemma hands_event_on_scenario :
  In (LogException 9 "Failed to generate pull request" (IssueOpened 42)
        (CollaboratorError "diff failed"))
     (calls (log_of_run run_failed)) /\
  IssueOpened 42 = IssueOpened 42.
Proof.
  assert (Hin : In (LogException 9 "Failed to generate pull request"
                      (IssueOpened 42) (CollaboratorError "diff failed"))
                   (calls (log_of_run run_failed))).
  { cbn. right. right. right. left. reflexivity. }
  split.
  - exact Hin.
  - apply (generate_pr_hands_event_on (scripted (quiet "gpt-4"))
             (brain (Some (raising (CollaboratorError "diff failed"))))
             (IssueOpened 42) start (state_of_run run_failed)
             (outcome_of_run run_failed) (log_of_run run_failed)
             (LogException 9 "Failed to generate pull request" (IssueOpened 42)
                (CollaboratorError "diff failed"))).
    + reflexivity.
    + exact Hin.
    + reflexivity.
Defined.

(** The third scenario uses the whole budget: six calls. *)
Lemma call_budget_scenario :
  1 <= length (log_of_run run_gpt35) /\
  length (log_of_run run_gpt35) <= 6 /\
  count is_publish_update (log_of_run run_gpt35) <= 1 /\
  count is_log_exception (log_of_run run_gpt35) <= 1 /\
  count is_log_info (log_of_run run_gpt35) <= 2 /\
  count is_logger_setup (log_of_run run_gpt35) = 0.
Proof.
  apply (generate_pr_call_budget (scripted (quiet "gpt-3.5-turbo"))
           (brain (Some returning)) (IssueOpened 42) start
           (state_of_run run_gpt35) (outcome_of_run run_gpt35)).
  reflexivity.
Defined.

Example six_calls_with_gpt35 : length (log_of_run run_gpt35) = 6.
Proof. reflexivity. Qed.

(** The info log of the first scenario. *)
Lemma info_messages_scenario :
  (info_messages (log_of_run run_ok) = [] \/
   info_messages (log_of_run run_ok) = ["Generating changes"] \/
   info_messages (log_of_run run_ok)
     = ["Generating changes"; "Generated changes"]) /\
  (In "Generated changes" (info_messages (log_of_run run_ok)) ->
   outcome_at is_generate_pr (log_of_run run_ok) = Some Returned /\
   count is_log_exception (log_of_run run_ok) = 0).
Proof.
  apply (info_messages_follow_the_run (scripted (quiet "gpt-4"))
           (brain (Some returning)) (IssueOpened 42) start
           (state_of_run run_ok) (outcome_of_run run_ok)).
  reflexivity.
Defined.

(** A failed run logs the start only. *)
Example info_messages_of_failed_run :
  info_messages (log_of_run run_failed) = ["Generating changes"].
Proof. reflexivity. Qed.

(** The example construction: the logger structlog returned, object 9, is
    the agent's [log] and the receiver of the warning. *)
Lemma init_binds_logger_scenario :
  (forall self, outcome_of_run construction = Return self -> log self = 9) /\
  calls (log_of_run construction)
    = [GetLogger "brain" "scenario-brain";
       LogWarning 9 "Brain did not use additional options" [("temperature", 11)]].
Proof.
  apply (init_binds_logger (scripted (quiet "gpt-4")) (brain None)
           1 2 3 4 5 6 7 8 [("temperature", 11)] (heap start)
           (state_of_run construction) (heap start)
           (outcome_of_run construction) (Return 9) (log_of_run construction)).
  - reflexivity.
  - reflexivity.
  - reflexivity.
Defined.

(** When [structlog.get_logger] raises, so does construction, after that one
    call. *)
Example construction_without_logger_run :
  construction_without_logger
    = (Raise (CollaboratorError "structlog misconfigured"), heap start,
       [{| what := GetLogger "brain" "scenario-brain";
           how := Raised (CollaboratorError "structlog misconfigured") |}]).
Proof. reflexivity. Qed.

(** The example construction returns, its two calls returned, and it
    published nothing. *)
Lemma init_returns_scenario :
  ((exists self, outcome_of_run construction = Return self) <->
   all_returned (log_of_run construction) = true) /\
  1 <= length (log_of_run construction) /\
  length (log_of_run construction) <= 2 /\
  count is_publish_call (log_of_run construction) = 0 /\
  count is_generate_pr (log_of_run construction) = 0.
Proof.
  apply (init_returns_iff_calls_returned (scripted (quiet "gpt-4")) (brain None)
           1 2 3 4 5 6 7 8 [("temperature", 11)] (heap start)
           (state_of_run construction)).
  reflexivity.
Defined.

(** The agent of the example construction, run on the first scenario: its
    finalize call is made on object 7, the publish service it was built
    with. *)
Lemma constructed_agent_scenario :
  (is_publish_call (@Finalize ScenarioEvent 7 true) = true -> 7 = 7) /\
  (is_publish_call (@Finalize ScenarioEvent 7 true) = false ->
   fst (structlog_get_logger (scripted (quiet "gpt-4")) "brain"
          (id (brain (Some returning))) (heap start)) = Return 7).
Proof.
  apply (constructed_agent_calls_its_collaborators
           (scripted (quiet "gpt-4")) (brain (Some returning))
           1 2 3 4 5 6 7 8 [("temperature", 11)] (heap start) (heap start)
           agent
           [{| what := GetLogger "brain" "scenario-brain"; how := Returned |};
            {| what := LogWarning 9 "Brain did not use additional options"
                         [("temperature", 11)];
               how := Returned |}]
           (IssueOpened 42) (state_of_run run_ok) (outcome_of_run run_ok)
           (log_of_run run_ok) (Finalize 7 true) 7).
  - reflexivity.
  - reflexivity.
  - intros s. reflexivity.
  - cbn. do 4 right. left. reflexivity.
  - reflexivity.
Defined.
